(** * webargs.tornadoparser: a shallow embedding

    The module under study is [src/webargs/tornadoparser.py]: the two
    multi-dict proxies that sit between Tornado's request mappings and the
    schema, the JSON-body loader, and the two error handlers of
    [TornadoParser].

    Python values are embedded as an inductive type, exceptions as an
    explicit result type, dictionaries as finite maps.  What the module only
    imports (CPython's text primitives, [webargs.core]) is either written out
    (UTF-8 decoding, [repr]) or taken as an interface. *)

From Stdlib Require Import ZArith NArith Ascii String DecimalString.
From Stdlib.Strings Require Import Byte.
From stdpp Require Import base option list gmap.

Set Warnings "-register-all".
Local Open Scope N_scope.

(** ** Text and bytes *)

(** A Python [str] is a sequence of code points, a [bytes] object a sequence
    of octets. *)
Abbreviation pystr := (list N).
Abbreviation pybytes := (list byte).

(** A source literal, character by character.  A backslash in a literal
    here is a character like any other: ["\t"] is a backslash and a [t], as
    [repr] prints a tab. *)
Definition lit (s : string) : pystr :=
  (λ a, N_of_ascii a) <$> list_ascii_of_string s.
Arguments lit : simpl never.

(** [sep.join(parts)] *)
Fixpoint join (sep : pystr) (parts : list pystr) : pystr :=
  match parts with
  | [] => []
  | [p] => p
  | p :: ps => p ++ sep ++ join sep ps
  end.

Definition in_range (lo hi b : N) : bool := (lo <=? b) && (b <=? hi).

(** A continuation octet, 10xxxxxx. *)
Definition is_cont (b : N) : bool := in_range 0x80 0xBF b.

(** [bytes.decode("utf-8")] in strict mode on the octets' numeric values:
    shortest form only, no surrogates, nothing above U+10FFFF.  [None] is
    [UnicodeDecodeError]. *)
Fixpoint utf8_decode_octets (bs : list N) : option pystr :=
  match bs with
  | [] => Some []
  | b0 :: r0 =>
    if b0 <? 0x80 then cons b0 <$> utf8_decode_octets r0
    else if in_range 0xC2 0xDF b0 then
      match r0 with
      | b1 :: r1 =>
        if is_cont b1
        then cons ((b0 - 0xC0) * 64 + (b1 - 0x80)) <$> utf8_decode_octets r1
        else None
      | _ => None
      end
    else if in_range 0xE0 0xEF b0 then
      match r0 with
      | b1 :: b2 :: r2 =>
        if in_range (if b0 =? 0xE0 then 0xA0 else 0x80)
                    (if b0 =? 0xED then 0x9F else 0xBF) b1 && is_cont b2
        then cons (((b0 - 0xE0) * 64 + (b1 - 0x80)) * 64 + (b2 - 0x80))
               <$> utf8_decode_octets r2
        else None
      | _ => None
      end
    else if in_range 0xF0 0xF4 b0 then
      match r0 with
      | b1 :: b2 :: b3 :: r3 =>
        if in_range (if b0 =? 0xF0 then 0x90 else 0x80)
                    (if b0 =? 0xF4 then 0x8F else 0xBF) b1
           && is_cont b2 && is_cont b3
        then cons ((((b0 - 0xF0) * 64 + (b1 - 0x80)) * 64 + (b2 - 0x80)) * 64
                   + (b3 - 0x80))
               <$> utf8_decode_octets r3
        else None
      | _ => None
      end
    else None
  end.

Definition utf8_decode (b : pybytes) : option pystr :=
  utf8_decode_octets (Byte.to_N <$> b).

(** ** Values *)

(** The values a Tornado request mapping holds and hands on: text, bytes,
    lists and tuples of values, and, standing for everything that is neither
    text nor a sequence, [None] and integers. *)
Inductive pyval :=
| PNone
| PInt (z : Z)
| PStr (s : pystr)
| PBytes (b : pybytes)
| PList (l : list pyval)
| PTuple (l : list pyval).

(** [core.missing] is a singleton distinct from every value; a lookup result
    is either that sentinel or a value. *)
Inductive or_missing (A : Type) :=
| Missing
| Present (a : A).
Arguments Missing {A}.
Arguments Present {A} a.

(** [isinstance(v, (str, bytes))] *)
Definition is_str_or_bytes (v : pyval) : bool :=
  match v with PStr _ | PBytes _ => true | _ => false end.

(** [isinstance(v, (list, tuple))] *)
Definition is_list_or_tuple (v : pyval) : bool :=
  match v with PList _ | PTuple _ => true | _ => false end.

(** [bool(v)] *)
Definition py_bool (v : pyval) : bool :=
  match v with
  | PNone => false
  | PInt z => negb (z =? 0)%Z
  | PStr s => negb (bool_decide (s = []))
  | PBytes b => negb (bool_decide (b = []))
  | PList l | PTuple l => match l with [] => false | _ => true end
  end.

(** ** [repr] *)

(** Whether a code point above ASCII is printable is a table of the Unicode
    database. *)
Class UnicodeData := { isprintable : N → bool }.

Definition hex_digit (n : N) : N := if n <? 10 then 48 + n else 87 + n.

(** [width] lower-case hexadecimal digits of [n], most significant first. *)
Fixpoint hex (width : nat) (n : N) : pystr :=
  match width with
  | O => []
  | S w => hex w (n / 16) ++ [hex_digit (n mod 16)]
  end.

Definition squote : N := 39.
Definition dquote : N := 34.
Definition backslash : N := 92.

(** Double quotes are chosen only when the text has a single quote and no
    double quote. *)
Definition repr_quote (s : list N) : N :=
  if bool_decide (squote ∈ s) && negb (bool_decide (dquote ∈ s))
  then dquote else squote.

Definition repr_octet (quote c : N) : pystr :=
  if (c =? quote) || (c =? backslash) then [backslash; c]
  else if c =? 9 then lit "\t"
  else if c =? 10 then lit "\n"
  else if c =? 13 then lit "\r"
  else if (c <? 32) || (0x7f <=? c) then lit "\x" ++ hex 2 c
  else [c].

(** [repr(b)] for [b : bytes] *)
Definition repr_bytes (b : pybytes) : pystr :=
  let bs := Byte.to_N <$> b in
  let quote := repr_quote bs in
  lit "b" ++ [quote] ++ mbind (repr_octet quote) bs ++ [quote].

Definition repr_char `{UnicodeData} (quote c : N) : pystr :=
  if (c =? quote) || (c =? backslash) then [backslash; c]
  else if c =? 9 then lit "\t"
  else if c =? 10 then lit "\n"
  else if c =? 13 then lit "\r"
  else if (c <? 32) || (c =? 0x7f) then lit "\x" ++ hex 2 c
  else if c <? 0x7f then [c]
  else if isprintable c then [c]
  else if c <=? 0xff then lit "\x" ++ hex 2 c
  else if c <=? 0xffff then lit "\u" ++ hex 4 c
  else lit "\U" ++ hex 8 c.

(** [repr(s)] for [s : str] *)
Definition repr_str `{UnicodeData} (s : pystr) : pystr :=
  let quote := repr_quote s in
  [quote] ++ mbind (repr_char quote) s ++ [quote].

Definition repr_int (z : Z) : pystr :=
  lit (NilZero.string_of_int (Z.to_int z)).

Fixpoint py_repr `{UnicodeData} (v : pyval) : pystr :=
  match v with
  | PNone => lit "None"
  | PInt z => repr_int z
  | PStr s => repr_str s
  | PBytes b => repr_bytes b
  | PList l => lit "[" ++ join (lit ", ") (py_repr <$> l) ++ lit "]"
  | PTuple [x] => lit "(" ++ py_repr x ++ lit ",)"
  | PTuple l => lit "(" ++ join (lit ", ") (py_repr <$> l) ++ lit ")"
  end.

(** ** Errors *)

(** [ValidationError.messages]: field name to the ordered list of its
    messages, in the dictionary's insertion order. *)
Abbreviation messages_t := (list (pystr * list pystr)).

(** Extra response headers, a name to value mapping. *)
Abbreviation headers_t := (list (pystr * pystr)).

Module ValidationError.
Record t := mk { messages : messages_t }.
End ValidationError.

(** [class HTTPError(tornado.web.HTTPError)].  The record holds what the
    constructor stores: the two attributes of the subclass and the status,
    log message and reason handed on to Tornado. *)
Module HTTPError.
Record t := mk {
  status_code : Z;
  log_message : option pystr;
  reason : option pystr;
  messages : messages_t;
  headers : option headers_t }.

(** [def __init__(self, *args, **kwargs)]: [messages] and [headers] are
    popped from the keyword arguments with defaults [{}] and [None]; the
    positional status and log message and the keyword [reason] go to
    [super().__init__].  An absent keyword is [None] here. *)
Definition __init__ (status_code : Z) (log_message : option pystr)
    (reason : option pystr) (messages : option messages_t)
    (headers : option (option headers_t)) : t :=
  let messages := default [] messages in
  let headers := default None headers in
  mk status_code log_message reason messages headers.
End HTTPError.

Inductive exn :=
| HTTP (e : HTTPError.t)
| UnicodeDecodeError
| JSONDecodeError
| TypeError
| IndexError.

(** The outcome of a call: a value or a raised exception. *)
Inductive result (A : Type) :=
| Return (a : A)
| Raise (e : exn).
Arguments Return {A} a.
Arguments Raise {A} e.

#[export] Instance result_ret : MRet result := @Return.
#[export] Instance result_bind : MBind result := λ A B f m,
  match m with Return a => f a | Raise e => Raise e end.
#[export] Instance result_fmap : FMap result := λ A B f m,
  match m with Return a => Return (f a) | Raise e => Raise e end.

(** [for v in value] *)
Definition py_iter (value : pyval) : result (list pyval) :=
  match value with
  | PList l | PTuple l => Return l
  | PStr s => Return ((λ c, PStr [c]) <$> s)
  | PBytes b => Return ((λ c, PInt (Z.of_N (Byte.to_N c))) <$> b)
  | PNone | PInt _ => Raise TypeError
  end.

(** [value[0]] *)
Definition py_first (value : pyval) : result pyval :=
  match value with
  | PList l | PTuple l =>
    match l with v :: _ => Return v | [] => Raise IndexError end
  | PStr s => match s with c :: _ => Return (PStr [c]) | [] => Raise IndexError end
  | PBytes b =>
    match b with
    | c :: _ => Return (PInt (Z.of_N (Byte.to_N c)))
    | [] => Raise IndexError
    end
  | PNone | PInt _ => Raise TypeError
  end.

(** [value[:n]]; the sentinel is not subscriptable. *)
Definition py_slice_to (n : nat) (value : or_missing pyval) : result pyval :=
  match value with
  | Present (PList l) => Return (PList (take n l))
  | Present (PTuple l) => Return (PTuple (take n l))
  | Present (PStr s) => Return (PStr (take n s))
  | Present (PBytes b) => Return (PBytes (take n b))
  | Present PNone | Present (PInt _) | Missing => Raise TypeError
  end.

(** [tornado.escape._unicode]: text and [None] pass, bytes are decoded as
    UTF-8. *)
Definition _unicode (value : pyval) : result pyval :=
  match value with
  | PStr _ | PNone => Return value
  | PBytes b =>
    match utf8_decode b with
    | Some s => Return (PStr s)
    | None => Raise UnicodeDecodeError
    end
  | _ => Raise TypeError
  end.

(** [str(messages)] of a dictionary of lists of text. *)
Definition str_messages `{UnicodeData} (m : messages_t) : pystr :=
  lit "{"
  ++ join (lit ", ")
       ((λ kv, repr_str kv.1 ++ lit ": " ++ py_repr (PList (PStr <$> kv.2))) <$> m)
  ++ lit "}".

(** ** The proxies *)

(** Modelled from the spec: [webargs.multidictproxy.MultiDictProxy], the
    base class of both proxies, whose module is not among the sources;
    section 3 gives its state, the raw mapping and the schema's multi-value
    key set. *)
Record MultiDictProxy (V : Type) := {
  data : gmap pystr V;
  multiple_keys : gset pystr }.
Arguments data {V} _.
Arguments multiple_keys {V} _.

Module WebArgsTornadoMultiDictProxy.
Section proxy.
Context `{UnicodeData}.

(** [_unicode(v) if isinstance(v, (str, bytes)) else v] *)
Definition decode_element (v : pyval) : result pyval :=
  if is_str_or_bytes v then _unicode v else Return v.

(** The body of the [try] statement.  Besides the outcome it gives the
    binding of the local [value] at the point where the block is left,
    which the handler reads. *)
Definition try_block (self : MultiDictProxy pyval) (key : pystr)
  : or_missing pyval * result (or_missing pyval) :=
  match data self !! key with
  | None => (Missing, Return Missing)
  | Some value =>
    if bool_decide (key ∈ multiple_keys self) then
      (Present value,
       vs ← py_iter value;
       decoded ← mapM decode_element vs;
       Return (Present (PList decoded)))
    else
      match (if py_bool value && is_list_or_tuple value
             then py_first value else Return value) with
      | Raise e => (Present value, Raise e)
      | Return value =>
        (Present value,
         if is_str_or_bytes value
         then Present <$> _unicode value
         else Return (Present value))
      end
  end.

(** [f"Invalid unicode in {key}: {value[:40]!r}"] *)
Definition invalid_unicode_message (key : pystr) (preview : pyval) : pystr :=
  lit "Invalid unicode in " ++ key ++ lit ": " ++ py_repr preview.

(** [def __getitem__(self, key)]: the [try] block, and the handler that
    turns [UnicodeDecodeError] into the status-400 error, slicing whatever
    [value] is bound to at that point. *)
Definition __getitem__ (self : MultiDictProxy pyval) (key : pystr)
  : result (or_missing pyval) :=
  let '(value, outcome) := try_block self key in
  match outcome with
  | Raise UnicodeDecodeError =>
    preview ← py_slice_to 40 value;
    Raise (HTTP (HTTPError.__init__ 400
                   (Some (invalid_unicode_message key preview))
                   None None None))
  | _ => outcome
  end.
End proxy.
End WebArgsTornadoMultiDictProxy.

(** [http.cookies.Morsel], as far as the proxy reads it: the [value]
    attribute. *)
Module Morsel.
Record t := mk { value : pyval }.
End Morsel.

Module WebArgsTornadoCookiesMultiDictProxy.
(** [def __getitem__(self, key)] of the cookie proxy. *)
Definition __getitem__ (self : MultiDictProxy Morsel.t) (key : pystr)
  : result (or_missing pyval) :=
  match data self !! key with
  | None => Return Missing
  | Some cookie =>
    if bool_decide (key ∈ multiple_keys self)
    then Return (Present (PList [Morsel.value cookie]))
    else Return (Present (Morsel.value cookie))
  end.
End WebArgsTornadoCookiesMultiDictProxy.

(** ** The request *)

(** [request.body] is the bytes read, or a [tornado.concurrent.Future] while
    a streaming request is still being read. *)
Inductive body_t :=
| Body (b : pybytes)
| Future.

(** [tornado.httputil.HTTPServerRequest], as far as the parser reads it. *)
Module Request.
Record t := mk {
  headers : gmap pystr pystr;
  body : body_t;
  query_arguments : gmap pystr pyval;
  body_arguments : gmap pystr pyval;
  cookies : gmap pystr Morsel.t;
  files : gmap pystr pyval }.
End Request.

(** ** What the module takes from [webargs.core] *)

(** [core.is_json] decides whether a content type names a JSON payload and
    [core.parse_json] parses a body; [json] is the type of parsed
    documents. *)
Class Core := {
  json : Type;
  is_json : pystr → bool;
  parse_json : pybytes → result json }.

(** Modelled from the spec: [core.Parser.DEFAULT_VALIDATION_STATUS], a class
    attribute of the base parser in webargs/core.py; section 4.5 gives the
    fixed default, 422. *)
Definition DEFAULT_VALIDATION_STATUS : Z := 422.

(** Modelled from the spec: the schema as far as the proxies need it
    (section 6), an ordered collection of named fields with their
    multiplicity flag. *)
Abbreviation Schema := (list (pystr * bool)).

(** Modelled from the spec: [core.Parser._makeproxy], which builds the proxy
    over a raw mapping and the schema's multi-valued keys (section 3). *)
Definition _makeproxy {V} (multidict : gmap pystr V) (schema : Schema)
  : MultiDictProxy V :=
  {| data := multidict;
     multiple_keys := list_to_set (fst <$> filter (λ f, f.2 = true) schema) |}.

(** [x or d] for [x : int | None]: [None] and [0] are both falsy. *)
Definition or_default (x : option Z) (d : Z) : Z :=
  match x with
  | Some c => if (c =? 0)%Z then d else c
  | None => d
  end.

(** Keyword arguments a caller may pass along to a handler. *)
Inductive kwarg :=
| KwStatus (c : option Z)
| KwHeaders (h : option headers_t)
| KwValue (v : pyval).

(** ** Header names *)

(** [tornado.httputil._normalize_header], which an [HTTPHeaders] applies to
    every name it stores and to every name it is asked for
    (Http-Header-Case).  [Request.headers] is the table it keeps, under
    normalised names. *)
Class HeaderNames := { _normalize_header : pystr → pystr }.

(** [headers.get(name)] of an [HTTPHeaders] over the table [headers]. *)
Definition headers_get `{HeaderNames} (headers : gmap pystr pystr)
    (name : pystr) : option pystr :=
  headers !! _normalize_header name.

(** What a reader that asks for [key] alone sees of the headers: the entry
    that [headers.get(key)] gives, as a value, or nothing. *)
Definition headers_view `{HeaderNames} (headers : gmap pystr pystr)
    (key : pystr) : gmap pystr pyval :=
  match headers_get headers key with
  | Some text => {[ key := PStr text ]}
  | None => ∅
  end.

(** ** The parser *)

(** [def is_json_request(req)] *)
Definition is_json_request `{Core} (req : Request.t) : bool :=
  match Request.headers req !! lit "Content-Type" with
  | Some content_type => is_json content_type
  | None => false
  end.

Module TornadoParser.
Section parser.
Context `{Core} `{UnicodeData} `{HeaderNames}.

(** [def _raw_load_json(self, req)] *)
Definition _raw_load_json (req : Request.t) : result (or_missing json) :=
  if negb (is_json_request req) then Return Missing
  else
    match Request.body req with
    | Future => Return Missing
    | Body b => Present <$> parse_json b
    end.

(** The loaders that wrap a raw mapping of the request in a proxy. *)
Definition load_querystring (req : Request.t) (schema : Schema) :=
  _makeproxy (Request.query_arguments req) schema.

Definition load_form (req : Request.t) (schema : Schema) :=
  _makeproxy (Request.body_arguments req) schema.

(** [def load_headers(self, req, schema)].  The raw mapping is
    [req.headers] itself, an [HTTPHeaders], which answers [get] under the
    normalised name.  The proxy reads its raw mapping through
    [data.get(key, core.missing)] and nothing else, so the proxy is given
    here for the key it is asked for, over what the headers show for that
    key. *)
Definition load_headers (req : Request.t) (schema : Schema) (key : pystr)
  : MultiDictProxy pyval :=
  _makeproxy (headers_view (Request.headers req) key) schema.

Definition load_cookies (req : Request.t) (schema : Schema) :=
  _makeproxy (Request.cookies req) schema.

Definition load_files (req : Request.t) (schema : Schema) :=
  _makeproxy (Request.files req) schema.

(** [def handle_error(self, error, req, schema, *, error_status_code,
    error_headers)].  It has no normal return, so it fits any result
    type. *)
Definition handle_error {A} (error : ValidationError.t) (req : Request.t)
    (schema : Schema) (error_status_code : option Z)
    (error_headers : option headers_t) : result A :=
  let status_code := or_default error_status_code DEFAULT_VALIDATION_STATUS in
  let reason :=
    if (status_code =? 422)%Z then Some (lit "Unprocessable Entity")
    else None in
  Raise (HTTP (HTTPError.__init__ status_code
                 (Some (str_messages (ValidationError.messages error)))
                 reason
                 (Some (ValidationError.messages error))
                 (Some error_headers))).

(** [def _handle_invalid_json_error(self, error, req, *args, **kwargs)] *)
Definition _handle_invalid_json_error {A} (error : exn) (req : Request.t)
    (args : list pyval) (kwargs : list (pystr * kwarg)) : result A :=
  Raise (HTTP (HTTPError.__init__ 400
                 (Some (lit "Invalid JSON body."))
                 (Some (lit "Bad Request"))
                 (Some [(lit "json", [lit "Invalid JSON body."])])
                 None)).

(** Modelled from the spec: [core.Parser.load_json], the caller of
    [_raw_load_json] in webargs/core.py.  Sections 4.1, 4.3 and 7: a body
    that is present but does not parse is a failure of its own, handed to
    [_handle_invalid_json_error] instead of being treated as missing; an
    absent body is just missing. *)
Definition load_json (req : Request.t) (schema : Schema)
  : result (or_missing json) :=
  match _raw_load_json req with
  | Raise JSONDecodeError =>
    match Request.body req with
    | Body (_ :: _) => _handle_invalid_json_error JSONDecodeError req [] []
    | _ => Return Missing
    end
  | outcome => outcome
  end.
End parser.
End TornadoParser.

(** ** Instances for the examples *)

(** A printable table: the Latin-1 letters and signs, nothing above. *)
Definition latin1_data : UnicodeData :=
  {| isprintable := λ c, in_range 0xA1 0xFF c && negb (c =? 0xAD) |}.

Fixpoint lstrip (s : pystr) : pystr :=
  match s with
  | c :: r => if c =? 32 then lstrip r else s
  | [] => []
  end.

Definition strip (s : pystr) : pystr :=
  reverse (lstrip (reverse (lstrip s))).

(** The text before the first [c]. *)
Fixpoint before (c : N) (s : pystr) : pystr :=
  match s with
  | x :: r => if x =? c then [] else x :: before c r
  | [] => []
  end.

Definition startswith (s p : pystr) : bool :=
  bool_decide (take (length p) s = p).

Definition endswith (s p : pystr) : bool :=
  bool_decide (drop (length s - length p)%nat s = p).

(** A content-type test in the manner of the test-suite:
    [application/json] and [application/*+json], parameters ignored. *)
Definition mimetype_is_json (content_type : pystr) : bool :=
  let mimetype := strip (before 59 content_type) in
  bool_decide (mimetype = lit "application/json")
  || (startswith mimetype (lit "application/")
      && endswith mimetype (lit "+json")).

(** A stand-in parser: a document is text in braces. *)
Definition braces_parser (b : pybytes) : result pystr :=
  match utf8_decode b with
  | Some s =>
    if startswith s (lit "{") && endswith s (lit "}")
    then Return s else Raise JSONDecodeError
  | None => Raise JSONDecodeError
  end.

Definition sample_core : Core :=
  {| json := pystr; is_json := mimetype_is_json; parse_json := braces_parser |}.

(** Http-Header-Case of an ASCII name: each word between dashes with its
    first letter in upper case and the others in lower case. *)
Fixpoint header_case (start : bool) (name : pystr) : pystr :=
  match name with
  | [] => []
  | c :: rest =>
    if c =? 45 then c :: header_case true rest
    else (if start
          then (if in_range 97 122 c then c - 32 else c)
          else (if in_range 65 90 c then c + 32 else c))
         :: header_case false rest
  end.

Definition ascii_header_names : HeaderNames :=
  {| _normalize_header := header_case true |}.

(** ASCII text as bytes. *)
Definition ascii_bytes (s : string) : pybytes := list_byte_of_string s.

(** [{"name": "Fred"}] *)
Definition fred_body : pybytes :=
  ascii_bytes "{" ++ [x22] ++ ascii_bytes "name" ++ [x22] ++ ascii_bytes ": "
  ++ [x22] ++ ascii_bytes "Fred" ++ [x22] ++ ascii_bytes "}".

Definition request_with (content_type : option pystr) (body : body_t)
  : Request.t :=
  Request.mk (from_option (λ ct, {[ lit "Content-Type" := ct ]}) ∅ content_type)
    body ∅ ∅ ∅ ∅.

(** [name=steve&name=Loria], as Tornado hands it over. *)
Definition steve_loria : pyval :=
  PList [PBytes (ascii_bytes "steve"); PBytes (ascii_bytes "Loria")].

Definition plain_text_fred : Request.t :=
  request_with (Some (lit "text/plain")) (Body fred_body).

Definition streaming : Request.t :=
  request_with (Some (lit "application/json")) Future.

Definition broken_json : Request.t :=
  request_with (Some (lit "application/json")) (Body (ascii_bytes "{oops")).

(** [GET] with the header [name: Fred], which the headers keep as
    [Name]. *)
Definition header_get : Request.t :=
  Request.mk {[ lit "Name" := lit "Fred" ]} (Body []) ∅ ∅ ∅ ∅.

(** [POST] with the form body [name=steve&name=Loria]. *)
Definition form_post : Request.t :=
  Request.mk ∅ (Body (ascii_bytes "name=steve&name=Loria")) ∅
    {[ lit "name" := steve_loria ]} ∅ ∅.

(** [GET] with the cookie [name=Steve]. *)
Definition cookie_get : Request.t :=
  Request.mk ∅ (Body []) ∅ ∅
    {[ lit "name" := Morsel.mk (PStr (lit "Steve")) ]} ∅.

Definition name_rejected : ValidationError.t :=
  ValidationError.mk [(lit "name", [lit "Invalid value."])].

Definition retry_after : option headers_t :=
  Some [(lit "Retry-After", lit "5")].

Definition single_key_proxy {V} (key : pystr) (raw : V) (multiple : bool)
  : MultiDictProxy V :=
  {| data := {[ key := raw ]};
     multiple_keys := if multiple then {[ key ]} else ∅ |}.

(** A field whose only occurrence is [n] octets 0xFF. *)
Definition flood (n : nat) (multiple : bool) : MultiDictProxy pyval :=
  single_key_proxy (lit "k") (PList [PBytes (replicate n xff)]) multiple.

(** ** The lookup contract in the spec's words *)

(** Text normalisation of one element (section 4.2): a bytes-like element is
    decoded to text, anything else stays as it is; [None] when the bytes do
    not decode. *)
Definition normalized (v : pyval) : option pyval :=
  match v with
  | PBytes b => PStr <$> utf8_decode b
  | _ => Some v
  end.

(** Step 3 of the lookup (section 4.2): of a raw value that is itself a
    sequence, only the first element is taken. *)
Definition first_of_sequence (value : pyval) : pyval :=
  match value with
  | PList (first :: _) | PTuple (first :: _) => first
  | _ => value
  end.

(** The cookie variant (section 4.2): unwrap to the cookie's value first,
    then branch on the key's multiplicity. *)
Definition cookie_unwrap_then_branch (self : MultiDictProxy Morsel.t)
    (key : pystr) : or_missing pyval :=
  match Morsel.value <$> data self !! key with
  | None => Missing
  | Some v =>
    if bool_decide (key ∈ multiple_keys self) then Present (PList [v])
    else Present v
  end.

(** Printable ASCII: space to tilde. *)
Definition printable_ascii (c : N) : Prop := 32 ≤ c ∧ c ≤ 126.

(** A Unicode scalar value: up to U+10FFFF and no surrogate. *)
Definition scalar_value (c : N) : Prop :=
  c ≤ 0x10FFFF ∧ ¬ (0xD800 ≤ c ∧ c ≤ 0xDFFF).

(** * Properties *)

(** ** Text primitives *)

Lemma length_lit (s : string) : length (lit s) = String.length s.
Proof.
  unfold lit. rewrite length_fmap.
  induction s as [|a s IH]; simpl; [reflexivity | by rewrite IH].
Qed.

Lemma length_hex (w : nat) (n : N) : length (hex w n) = w.
Proof.
  revert n. induction w as [|w IH]; intros n; simpl; [reflexivity|].
  rewrite length_app, IH. simpl. lia.
Qed.

Lemma length_repr_octet (quote c : N) : (length (repr_octet quote c) ≤ 4)%nat.
Proof.
  unfold repr_octet.
  repeat case_match; rewrite ?length_app, ?length_lit, ?length_hex; simpl; lia.
Qed.

Lemma length_bind_le {A B} (f : A → list B) (k : nat) (l : list A) :
  (∀ x, length (f x) ≤ k)%nat → (length (l ≫= f) ≤ k * length l)%nat.
Proof.
  intros Hf. induction l as [|x l IH]; [simpl; lia|].
  rewrite bind_cons, length_app. simpl length. specialize (Hf x). lia.
Qed.

(** The [repr] of bytes is at most four characters an octet, plus the [b]
    and the quotes. *)
Lemma length_repr_bytes (b : pybytes) :
  (length (repr_bytes b) ≤ 4 * length b + 3)%nat.
Proof.
  unfold repr_bytes. rewrite !length_app, length_lit. simpl.
  pose proof (length_bind_le (repr_octet (repr_quote (to_N <$> b))) 4
                (to_N <$> b) (length_repr_octet _)) as Hle.
  rewrite length_fmap in Hle. lia.
Qed.

Lemma utf8_decode_xff (n : nat) : utf8_decode (replicate (S n) xff) = None.
Proof. reflexivity. Qed.

Lemma repr_quote_xff (n : nat) : repr_quote (to_N <$> replicate n xff) = squote.
Proof.
  unfold repr_quote. rewrite fmap_replicate.
  rewrite (bool_decide_eq_false_2 (squote ∈ _)); [reflexivity|].
  intros [Heq _]%elem_of_replicate. discriminate Heq.
Qed.

Lemma bind_repr_octet_xff (n : nat) :
  replicate n (to_N xff) ≫= repr_octet squote
  = replicate n () ≫= λ _, lit "\xff".
Proof.
  induction n as [|n IH]; [reflexivity|].
  rewrite !replicate_S, !bind_cons, IH. reflexivity.
Qed.

(** Every octet 0xFF is echoed, as the four characters [\xff]. *)
Lemma repr_bytes_xff (n : nat) :
  repr_bytes (replicate n xff)
  = lit "b'" ++ (replicate n () ≫= λ _, lit "\xff") ++ lit "'".
Proof.
  unfold repr_bytes.
  rewrite repr_quote_xff, fmap_replicate, bind_repr_octet_xff.
  reflexivity.
Qed.

(** Decoding is strict: one to four octets a code point, and no stray,
    truncated, overlong, surrogate or out-of-range sequence. *)
Example utf8_decode_samples :
  utf8_decode (ascii_bytes "abc") = Some (lit "abc")
  ∧ utf8_decode [xc3; xa9] = Some [0xE9]
  ∧ utf8_decode [xe2; x82; xac] = Some [0x20AC]
  ∧ utf8_decode [xf0; x9f; x98; x80] = Some [0x1F600]
  ∧ utf8_decode [xff] = None
  ∧ utf8_decode [xc3] = None
  ∧ utf8_decode [xc0; x80] = None
  ∧ utf8_decode [xed; xa0; x80] = None
  ∧ utf8_decode [xf4; x90; x80; x80] = None.
Proof. repeat split; vm_compute; reflexivity. Qed.

Example py_repr_samples :
  @py_repr latin1_data
    (PList [PBytes [xff; x41; x09]; PStr (lit "it's"); PInt (-3); PNone;
            PTuple [PInt 1]; PTuple []])
  = lit "[b'\xffA\t', " ++ [dquote] ++ lit "it's" ++ [dquote]
    ++ lit ", -3, None, (1,), ()]".
Proof. vm_compute. reflexivity. Qed.

(** ** Lookup through [WebArgsTornadoMultiDictProxy] *)

Section proxy_lookup.
Context `{!UnicodeData}.
Import WebArgsTornadoMultiDictProxy.

Implicit Types (self : MultiDictProxy pyval) (key : pystr).
Implicit Types (value first v : pyval) (vs rest : list pyval).

(** The source's element-wise step is the spec's normalisation, a failed
    decoding being [UnicodeDecodeError]. *)
Lemma decode_element_normalized v :
  decode_element v
  = match normalized v with
    | Some d => Return d
    | None => Raise UnicodeDecodeError
    end.
Proof.
  destruct v as [| | |b| |]; try reflexivity.
  unfold decode_element; simpl. by destruct (utf8_decode b).
Qed.

Lemma mapM_decode_element vs :
  mapM decode_element vs
  = match mapM normalized vs with
    | Some decoded => Return decoded
    | None => Raise UnicodeDecodeError
    end.
Proof.
  induction vs as [|v vs IH]; [reflexivity|].
  simpl. rewrite decode_element_normalized, IH.
  by destruct (normalized v), (mapM normalized vs).
Qed.

Lemma normalized_None v :
  normalized v = None → ∃ b, v = PBytes b ∧ utf8_decode b = None.
Proof.
  destruct v as [| | |b| |]; try discriminate. simpl.
  destruct (utf8_decode b) eqn:Hb; [discriminate | eauto].
Qed.

(** Only a list or a tuple can hold an element that fails to decode: text
    iterates to text and bytes to integers. *)
Lemma undecodable_element_sequence value vs :
  py_iter value = Return vs →
  Exists (λ v, normalized v = None) vs →
  value = PList vs ∨ value = PTuple vs.
Proof.
  intros Hiter (v & Hin & Hv)%Exists_exists.
  apply normalized_None in Hv as (b & -> & _).
  destruct value; simplify_eq/=; auto.
  - apply list_elem_of_fmap in Hin as (? & ? & _). discriminate.
  - apply list_elem_of_fmap in Hin as (? & ? & _). discriminate.
Qed.

Lemma getitem_absent self key :
  data self !! key = None → __getitem__ self key = Return Missing.
Proof. intros Hget. unfold __getitem__, try_block. by rewrite Hget. Qed.

(** The lookup of a multi-valued key, outcome by outcome. *)
Lemma getitem_multiple self key value vs :
  key ∈ multiple_keys self →
  data self !! key = Some value →
  py_iter value = Return vs →
  __getitem__ self key
  = match mapM normalized vs with
    | Some decoded => Return (Present (PList decoded))
    | None =>
      Raise (HTTP (HTTPError.__init__ 400
                     (Some (invalid_unicode_message key
                              (match value with
                               | PTuple _ => PTuple (take 40 vs)
                               | _ => PList (take 40 vs)
                               end)))
                     None None None))
    end.
Proof.
  intros Hmulti Hget Hiter. unfold __getitem__, try_block.
  rewrite Hget, bool_decide_eq_true_2, Hiter by done. simpl.
  rewrite mapM_decode_element.
  destruct (mapM normalized vs) eqn:Hmap; [reflexivity|].
  apply mapM_None in Hmap.
  by destruct (undecodable_element_sequence _ _ Hiter Hmap) as [-> | ->].
Qed.

(** A raw value that cannot be iterated makes the comprehension fail with
    [TypeError], which the handler does not catch. *)
Lemma getitem_multiple_not_iterable self key value :
  key ∈ multiple_keys self →
  data self !! key = Some value →
  py_iter value = Raise TypeError →
  __getitem__ self key = Raise TypeError.
Proof.
  intros Hmulti Hget Hiter. unfold __getitem__, try_block.
  by rewrite Hget, bool_decide_eq_true_2, Hiter.
Qed.

(** The lookup of a key that is not multi-valued, in terms of the value
    left after the first-element unwrap. *)
Lemma getitem_scalar self key value :
  key ∉ multiple_keys self →
  data self !! key = Some value →
  __getitem__ self key
  = match first_of_sequence value with
    | PBytes b =>
      match utf8_decode b with
      | Some s => Return (Present (PStr s))
      | None =>
        Raise (HTTP (HTTPError.__init__ 400
                       (Some (invalid_unicode_message key (PBytes (take 40 b))))
                       None None None))
      end
    | scalar => Return (Present scalar)
    end.
Proof.
  intros Hmulti Hget. unfold __getitem__, try_block.
  rewrite Hget, bool_decide_eq_false_2 by done.
  destruct value as [| | |b|[|first ?]|[|first ?]]; simpl;
    rewrite ?andb_false_r; simpl; try reflexivity.
  - by destruct (utf8_decode b).
  - destruct first as [| | |b| |]; simpl; try reflexivity.
    by destruct (utf8_decode b).
  - destruct first as [| | |b| |]; simpl; try reflexivity.
    by destruct (utf8_decode b).
Qed.


(** C3.  An absent key gives the MISSING sentinel.  For a key that is not
    declared multi-valued and whose raw value is a list or tuple of one or
    more occurrences, the lookup is decided by the first occurrence alone:
    it returns that occurrence, as text when it is text or bytes that
    decode, unchanged when it is neither; the remaining occurrences are
    not looked at.  Only a first occurrence of undecodable bytes makes it
    raise, with status 400. *)
Theorem getitem_scalar_takes_first self key :
  (data self !! key = None → __getitem__ self key = Return Missing)
  ∧ (key ∉ multiple_keys self →
     ∀ first rest,
       data self !! key = Some (PList (first :: rest))
       ∨ data self !! key = Some (PTuple (first :: rest)) →
       (∀ s, first = PStr s →
             __getitem__ self key = Return (Present (PStr s)))
       ∧ (∀ b s, first = PBytes b → utf8_decode b = Some s →
                 __getitem__ self key = Return (Present (PStr s)))
       ∧ (is_str_or_bytes first = false →
          __getitem__ self key = Return (Present first))
       ∧ (∀ b, first = PBytes b → utf8_decode b = None →
               ∃ e, __getitem__ self key = Raise (HTTP e)
                    ∧ HTTPError.status_code e = 400%Z)).
Proof.
  split; [apply getitem_absent|].
  intros Hmulti first rest Hget.
  assert (∃ value,
            data self !! key = Some value
            ∧ first_of_sequence value = first) as (value & Hvalue & Hfirst)
    by (destruct Hget; eauto).
  pose proof (getitem_scalar _ _ _ Hmulti Hvalue) as Hlookup.
  rewrite Hfirst in Hlookup. clear Hget.
  repeat split.
  - by intros s ->.
  - intros b s -> Hs. by rewrite Hs in Hlookup.
  - intros Hother. by destruct first.
  - intros b -> Hb. rewrite Hb in Hlookup. eauto.
Qed.

(** C9.  For a key that is not declared multi-valued, a raw value that is
    present but is an empty list or an empty tuple comes back as it is:
    neither the MISSING sentinel nor a scalar. *)
Theorem getitem_empty_sequence_unchanged self key value :
  key ∉ multiple_keys self →
  data self !! key = Some value →
  value = PList [] ∨ value = PTuple [] →
  __getitem__ self key = Return (Present value).
Proof.
  intros Hmulti Hget Hempty.
  rewrite (getitem_scalar _ _ _ Hmulti Hget). by destruct Hempty as [-> | ->].
Qed.

(** On the scalar branch the preview in the error message is cut to forty
    octets, whose [repr] has at most 163 characters. *)
Lemma invalid_unicode_scalar_preview_bounded self key e :
  key ∉ multiple_keys self →
  __getitem__ self key = Raise (HTTP e) →
  HTTPError.status_code e = 400%Z
  ∧ ∃ b,
      HTTPError.log_message e
      = Some (lit "Invalid unicode in " ++ key ++ lit ": "
              ++ repr_bytes (take 40 b))
      ∧ (length (repr_bytes (take 40 b)) ≤ 163)%nat.
Proof.
  intros Hmulti.
  destruct (data self !! key) as [value|] eqn:Hget;
    [|by rewrite getitem_absent].
  rewrite (getitem_scalar _ _ _ Hmulti Hget).
  destruct (first_of_sequence value) as [| | |b| |]; try discriminate.
  destruct (utf8_decode b); [discriminate|].
  intros [= <-]. split; [reflexivity|].
  eexists. split; [reflexivity|].
  etrans; [apply length_repr_bytes|]. rewrite length_take. lia.
Qed.

(** C6.  On the multi-valued branch the handler slices the raw list, not
    the offending bytes: a single occurrence of [n + 1] undecodable octets
    is echoed whole in the message of the status-400 error, four
    characters an octet. *)
Theorem invalid_unicode_multiple_echoes_whole_value (n : nat) :
  ∃ e,
    __getitem__ (flood (S n) true) (lit "k") = Raise (HTTP e)
    ∧ HTTPError.status_code e = 400%Z
    ∧ HTTPError.log_message e
      = Some (lit "Invalid unicode in k: [b'"
              ++ (replicate (S n) () ≫= λ _, lit "\xff") ++ lit "']")
    ∧ ∀ msg, HTTPError.log_message e = Some msg →
             length msg = (31 + 4 * n)%nat.
Proof.
  eexists. split; [|split; [|split]].
  - erewrite getitem_multiple;
      [|by apply elem_of_singleton_2|by apply lookup_singleton_eq|done].
    assert (mapM normalized [PBytes (replicate (S n) xff)] = None) as ->
      by reflexivity.
    reflexivity.
  - reflexivity.
  - change (HTTPError.log_message (HTTPError.__init__ _ ?m _ _ _)) with m.
    unfold invalid_unicode_message.
    change (py_repr _)
      with (lit "[" ++ repr_bytes (replicate (S n) xff) ++ lit "]").
    rewrite repr_bytes_xff. f_equal. by rewrite <- !app_assoc.
  - change (HTTPError.log_message (HTTPError.__init__ _ ?m _ _ _)) with m.
    intros msg [= <-]. unfold invalid_unicode_message.
    change (py_repr _)
      with (lit "[" ++ repr_bytes (replicate (S n) xff) ++ lit "]").
    rewrite repr_bytes_xff, !length_app, !length_lit.
    assert (∀ m, length (replicate m () ≫= λ _, lit "\xff") = (4 * m)%nat)
      as ->.
    { induction m as [|m IH]; [reflexivity|].
      rewrite replicate_S, bind_cons, length_app, IH, length_lit.
      simpl. lia. }
    simpl. lia.
Qed.
End proxy_lookup.

(** ** Lookup through [WebArgsTornadoCookiesMultiDictProxy] *)

Section cookie_lookup.
Import WebArgsTornadoCookiesMultiDictProxy.

Implicit Types (self : MultiDictProxy Morsel.t) (key : pystr).

(** C7.  The cookie lookup is the spec's "unwrap to the value attribute,
    then branch on the key's multiplicity".  It never raises and never
    decodes: an absent key gives the MISSING sentinel, a present cookie
    gives exactly its value for a key that is not multi-valued, and the
    one-element list of its value for a multi-valued key, whatever that
    value is. *)
Theorem cookie_getitem_unwraps_without_decoding self key :
  __getitem__ self key = Return (cookie_unwrap_then_branch self key)
  ∧ (data self !! key = None → __getitem__ self key = Return Missing)
  ∧ (∀ cookie,
       data self !! key = Some cookie →
       key ∉ multiple_keys self →
       __getitem__ self key = Return (Present (Morsel.value cookie)))
  ∧ (∀ cookie,
       data self !! key = Some cookie →
       key ∈ multiple_keys self →
       __getitem__ self key = Return (Present (PList [Morsel.value cookie]))).
Proof.
  unfold __getitem__, cookie_unwrap_then_branch.
  repeat split.
  - destruct (data self !! key); simpl; [|reflexivity]. by case_bool_decide.
  - by intros ->.
  - intros cookie -> Hmulti. by rewrite bool_decide_eq_false_2.
  - intros cookie -> Hmulti. by rewrite bool_decide_eq_true_2.
Qed.
End cookie_lookup.

(** ** The JSON body *)

Section json_body.
Context `{!Core}.
Import TornadoParser.

Implicit Types (req : Request.t) (schema : Schema).

Lemma is_json_request_false req :
  is_json_request req = false
  ↔ Request.headers req !! lit "Content-Type" = None
    ∨ ∃ content_type,
        Request.headers req !! lit "Content-Type" = Some content_type
        ∧ is_json content_type = false.
Proof.
  unfold is_json_request.
  destruct (Request.headers req !! lit "Content-Type") as [ct|]; split.
  - intros Hct. right. eauto.
  - intros [[=] | (ct' & [= <-] & Hct)]. exact Hct.
  - by left.
  - reflexivity.
Qed.

(** C1.  When the declared content type does not indicate JSON (the
    header is absent or [core.is_json] rejects it), the loader returns the
    MISSING sentinel, and it does so whatever [core.parse_json] would make
    of the body: the body is not parsed. *)
Theorem raw_load_json_non_json_missing req :
  is_json_request req = false →
  _raw_load_json req = Return Missing
  ∧ ∀ parse : pybytes → result json,
      @_raw_load_json {| json := json; is_json := is_json; parse_json := parse |}
        req
      = Return Missing.
Proof.
  intros Hct. split.
  - unfold _raw_load_json. by rewrite Hct.
  - intros parse. unfold _raw_load_json.
    change (@is_json_request _ req) with (is_json_request req).
    by rewrite Hct.
Qed.

(** C8.  When the body is still a future, the loader returns the MISSING
    sentinel, with a JSON content type as without one: it neither raises
    nor waits for the body. *)
Theorem raw_load_json_future_missing req :
  Request.body req = Future → _raw_load_json req = Return Missing.
Proof.
  intros Hbody. unfold _raw_load_json.
  destruct (is_json_request req); simpl; [|reflexivity]. by rewrite Hbody.
Qed.
End json_body.

(** ** The error handlers *)

Section error_handlers.
Context `{!Core} `{!UnicodeData}.
Import TornadoParser.

Implicit Types (req : Request.t) (schema : Schema).
Implicit Types (error : ValidationError.t).

Lemma handle_error_reason {A} error req schema error_status_code error_headers e :
  @handle_error _ A error req schema error_status_code error_headers
  = Raise (HTTP e) →
  HTTPError.reason e = Some (lit "Unprocessable Entity")
  ∨ HTTPError.reason e = None.
Proof.
  unfold handle_error. intros [= <-]. simpl. case_match; auto.
Qed.

(** C4.  [handle_error] always raises.  The status of the error is the
    caller's [error_status_code] when that is given and not zero, and the
    default 422 otherwise; the reason is "Unprocessable Entity" exactly
    when the status is 422 and left to the framework otherwise; the
    messages of the validation error and the caller's extra headers are
    carried as they are. *)
Theorem handle_error_raises_with_status {A} error req schema
    error_status_code error_headers :
  ∃ e,
    @handle_error _ A error req schema error_status_code error_headers
    = Raise (HTTP e)
    ∧ (∀ c, error_status_code = Some c → c ≠ 0%Z →
            HTTPError.status_code e = c)
    ∧ (error_status_code = None ∨ error_status_code = Some 0%Z →
       HTTPError.status_code e = 422%Z)
    ∧ (HTTPError.reason e = Some (lit "Unprocessable Entity")
       ↔ HTTPError.status_code e = 422%Z)
    ∧ (HTTPError.status_code e ≠ 422%Z → HTTPError.reason e = None)
    ∧ HTTPError.messages e = ValidationError.messages error
    ∧ HTTPError.headers e = error_headers.
Proof.
  eexists. split; [reflexivity|]. simpl. repeat split.
  - intros c -> Hc. simpl. by rewrite (proj2 (Z.eqb_neq c 0) Hc).
  - by intros [-> | ->].
  - case_match eqn:Hs; [by apply Z.eqb_eq in Hs | discriminate].
  - intros ->%Z.eqb_eq. reflexivity.
  - intros Hs%Z.eqb_neq. by rewrite Hs.
Qed.

(** C10.  The error for a malformed JSON body has no headers and the
    reason "Bad Request", whatever positional and keyword arguments the
    handler is given, [error_headers] among them; [handle_error], for
    comparison, hands the caller's headers on. *)
Theorem invalid_json_error_carries_no_headers {A} (error : exn) req
    (args : list pyval) (kwargs : list (pystr * kwarg)) :
  (∃ e,
     @_handle_invalid_json_error A error req args kwargs = Raise (HTTP e)
     ∧ HTTPError.headers e = None
     ∧ HTTPError.reason e = Some (lit "Bad Request"))
  ∧ ∀ verror schema error_status_code error_headers,
      ∃ e',
        @handle_error _ A verror req schema error_status_code error_headers
        = Raise (HTTP e')
        ∧ HTTPError.headers e' = error_headers.
Proof.
  split; [by eexists | intros; by eexists].
Qed.

(** C5.  With a JSON content type and a body that is present but does not
    parse, the loader does not answer MISSING: the parse error comes out
    of [_raw_load_json] and the parser raises the error of
    [_handle_invalid_json_error] in place of a document to look fields up
    in.  That error has status 400, not the validation default, the
    messages [{"json": ["Invalid JSON body."]}], and is none of the errors
    [handle_error] raises for a validation failure. *)
Theorem invalid_json_body_raises_400 req schema (b : pybytes) :
  is_json_request req = true →
  Request.body req = Body b →
  b ≠ [] →
  parse_json b = Raise JSONDecodeError →
  ∃ e,
    _raw_load_json req = Raise JSONDecodeError
    ∧ load_json req schema = Raise (HTTP e)
    ∧ (∀ A (error : exn) args kwargs,
         @_handle_invalid_json_error A error req args kwargs
         = Raise (HTTP e))
    ∧ HTTPError.status_code e = 400%Z
    ∧ HTTPError.status_code e ≠ DEFAULT_VALIDATION_STATUS
    ∧ HTTPError.messages e = [(lit "json", [lit "Invalid JSON body."])]
    ∧ ∀ A verror req' schema' error_status_code error_headers,
        @handle_error _ A verror req' schema' error_status_code error_headers
        ≠ Raise (HTTP e).
Proof.
  intros Hct Hbody Hpresent Hparse.
  assert (_raw_load_json req = Raise JSONDecodeError) as Hraw.
  { unfold _raw_load_json. by rewrite Hct, Hbody, Hparse. }
  eexists. split; [exact Hraw|]. split; [|split; [|repeat split]].
  - unfold load_json. rewrite Hraw, Hbody. destruct b; [done|reflexivity].
  - reflexivity.
  - reflexivity.
  - by unfold DEFAULT_VALIDATION_STATUS.
  - reflexivity.
  - intros A verror req' schema' error_status_code error_headers Heq.
    apply handle_error_reason in Heq as [Heq | Heq]; [|discriminate].
    apply (f_equal (fmap (M := option) length)) in Heq.
    vm_compute in Heq. discriminate.
Qed.
End error_handlers.


(** ** The text primitives, as the lookup uses them *)

Lemma in_range_spec (lo hi b : N) :
  in_range lo hi b = true ↔ lo ≤ b ∧ b ≤ hi.
Proof. unfold in_range. by rewrite andb_true_iff, !N.leb_le. Qed.

(** Turns the decoder's tests on octets into inequalities. *)
Ltac octet_bounds :=
  unfold is_cont in *; repeat case_match;
  rewrite ?andb_true_iff, ?in_range_spec,
    ?N.ltb_lt, ?N.ltb_ge, ?N.eqb_eq, ?N.eqb_neq in *;
  destruct_and?.

(** Octets below 0x80 decode to themselves. *)
Lemma utf8_decode_octets_ascii (bs : list N) :
  Forall (λ c, c < 0x80) bs → utf8_decode_octets bs = Some bs.
Proof.
  induction 1 as [|c bs Hc _ IH]; [reflexivity|].
  simpl. apply N.ltb_lt in Hc. rewrite Hc, IH. reflexivity.
Qed.

(** What decodes has no more characters than there were octets, and holds
    scalar values only. *)
Lemma utf8_decode_octets_scalar (bs : list N) (s : pystr) :
  utf8_decode_octets bs = Some s →
  (length s ≤ length bs)%nat ∧ Forall scalar_value s.
Proof.
  remember (length bs) as n eqn:Hn.
  assert (length bs ≤ n)%nat as Hle by lia. clear Hn.
  revert bs s Hle. induction n as [|n IH]; intros bs s Hle Hdec.
  { destruct bs; [|simpl in Hle; lia]. injection Hdec as <-. by split. }
  destruct bs as [|b0 r0]; [injection Hdec as <-; split; [simpl; lia|done]|].
  simpl in Hdec, Hle.
  repeat case_match; simplify_eq/=;
    match goal with
    | H : cons _ <$> utf8_decode_octets ?r = Some _ |- _ =>
      destruct (utf8_decode_octets r) as [s'|] eqn:Hrec; simplify_eq/=;
      apply IH in Hrec as [Hlen Hall]; [|simpl in *; lia]
    end;
    (split; [simpl in *; lia|]);
    apply Forall_cons; (split; [|exact Hall]);
    unfold scalar_value; octet_bounds; lia.
Qed.

Ltac printable_closed :=
  lazymatch goal with
  | |- Forall _ ?l =>
    let l' := eval vm_compute in l in
    change l with l';
    repeat (apply Forall_cons; split; [unfold printable_ascii; lia|]);
    constructor
  | |- printable_ascii ?c =>
    let c' := eval vm_compute in c in
    change c with c'; unfold printable_ascii; lia
  end.

Lemma hex_printable (w : nat) (n : N) : Forall printable_ascii (hex w n).
Proof.
  revert n. induction w as [|w IH]; intros n; simpl; [constructor|].
  apply Forall_app. split; [apply IH|].
  apply Forall_cons. split; [|constructor].
  pose proof (N.mod_lt n 16 ltac:(lia)) as Hlt.
  generalize dependent (n `mod` 16). intros d Hlt.
  unfold hex_digit, printable_ascii. destruct (d <? 10) eqn:Hd.
  - apply N.ltb_lt in Hd. lia.
  - apply N.ltb_ge in Hd. lia.
Qed.

Lemma repr_quote_printable (s : list N) : printable_ascii (repr_quote s).
Proof. unfold repr_quote. case_match; printable_closed. Qed.

Lemma repr_octet_printable (quote c : N) :
  printable_ascii quote → Forall printable_ascii (repr_octet quote c).
Proof.
  intros Hq. unfold repr_octet.
  destruct ((c =? quote) || (c =? backslash)) eqn:Hescaped.
  { apply orb_true_iff in Hescaped as [->%N.eqb_eq | ->%N.eqb_eq];
      (apply Forall_cons; split; [printable_closed|]);
      (apply Forall_cons; split; [|constructor]);
      [exact Hq | printable_closed]. }
  repeat (case_match; [by printable_closed|]).
  destruct ((c <? 32) || (127 <=? c)) eqn:Hcontrol.
  - apply Forall_app. split; [printable_closed | apply hex_printable].
  - apply orb_false_iff in Hcontrol as [?%N.ltb_ge ?%N.leb_gt].
    apply Forall_cons. split; [|constructor]. unfold printable_ascii. lia.
Qed.

(** The [repr] of bytes is printable ASCII, whatever the octets. *)
Lemma repr_bytes_printable (b : pybytes) : Forall printable_ascii (repr_bytes b).
Proof.
  unfold repr_bytes.
  pose proof (repr_quote_printable (to_N <$> b)) as Hq.
  repeat (apply Forall_app; split).
  - printable_closed.
  - by apply Forall_cons.
  - apply Forall_bind, Forall_forall. intros c _. by apply repr_octet_printable.
  - by apply Forall_cons.
Qed.

(** ** Outcomes of the argument lookup *)

Section proxy_outcomes.
Context `{!UnicodeData}.
Import WebArgsTornadoMultiDictProxy.

Implicit Types (self : MultiDictProxy pyval) (key : pystr).
Implicit Types (value v d : pyval) (vs ds : list pyval).

Lemma py_iter_raise value (e : exn) : py_iter value = Raise e → e = TypeError.
Proof. destruct value; simpl; congruence. Qed.

(** Elements that are not bytes normalise to themselves. *)
Lemma mapM_normalized_no_bytes vs :
  Forall (λ v, ∀ b, v ≠ PBytes b) vs → mapM normalized vs = Some vs.
Proof.
  intros Hall. apply mapM_Some_2, Forall_Forall2_diag.
  eapply Forall_impl; [exact Hall|]. intros [] Hv; try reflexivity.
  by destruct (Hv b).
Qed.

(** The scalar branch in terms of the normalisation of the value left after
    the first-element unwrap. *)
Lemma getitem_scalar_normalized self key value d :
  key ∉ multiple_keys self →
  data self !! key = Some value →
  normalized (first_of_sequence value) = Some d →
  __getitem__ self key = Return (Present d).
Proof.
  intros Hmulti Hget Hnorm. rewrite (getitem_scalar _ _ _ Hmulti Hget).
  destruct (first_of_sequence value) as [| | |b| |]; simplify_eq/=;
    try reflexivity.
  destruct (utf8_decode b); by simplify_eq/=.
Qed.

(** Text under a multi-valued key comes back character by character. *)
Lemma getitem_multiple_text self key (s : pystr) :
  key ∈ multiple_keys self →
  data self !! key = Some (PStr s) →
  __getitem__ self key = Return (Present (PList ((λ c, PStr [c]) <$> s))).
Proof.
  intros Hmulti Hget. rewrite (getitem_multiple _ _ _ _ Hmulti Hget eq_refl).
  rewrite mapM_normalized_no_bytes; [reflexivity|].
  apply Forall_fmap, Forall_true. by intros c b.
Qed.

(** X1.  The lookup answers MISSING for an absent key and for nothing else:
    a raw value that is present, be it [None], empty text or an empty list,
    is never reported as missing. *)
Theorem getitem_missing_iff_absent self key :
  __getitem__ self key = Return Missing ↔ data self !! key = None.
Proof.
  split; [|apply getitem_absent].
  destruct (data self !! key) as [value|] eqn:Hget; [|done].
  destruct (decide (key ∈ multiple_keys self)) as [Hmulti | Hmulti].
  - destruct (py_iter value) as [vs|e] eqn:Hiter.
    + rewrite (getitem_multiple _ _ _ _ Hmulti Hget Hiter).
      by destruct (mapM normalized vs).
    + pose proof (py_iter_raise _ _ Hiter) as ->.
      by rewrite (getitem_multiple_not_iterable _ _ _ Hmulti Hget Hiter).
  - rewrite (getitem_scalar _ _ _ Hmulti Hget).
    destruct (first_of_sequence value) as [| | |b| |]; try done.
    by destruct (utf8_decode b).
Qed.

(** X2.  Whatever the lookup raises is one of two things.  It is the
    status-400 error, with no reason, no structured messages, no headers
    and a log message that starts with "Invalid unicode in ", the key and a
    colon.  Or it is the [TypeError] of iterating a raw value that is no
    sequence, which only a multi-valued key can meet.  [UnicodeDecodeError]
    never escapes, and the guarded [value[0]] never raises [IndexError]. *)
Theorem getitem_raises_bad_request_or_type_error self key (e : exn) :
  __getitem__ self key = Raise e →
  (e = TypeError
   ∧ key ∈ multiple_keys self
   ∧ ∃ value, data self !! key = Some value ∧ py_iter value = Raise TypeError)
  ∨ ∃ he preview,
      e = HTTP he
      ∧ HTTPError.status_code he = 400%Z
      ∧ HTTPError.reason he = None
      ∧ HTTPError.messages he = []
      ∧ HTTPError.headers he = None
      ∧ HTTPError.log_message he
        = Some (lit "Invalid unicode in " ++ key ++ lit ": " ++ preview).
Proof.
  destruct (data self !! key) as [value|] eqn:Hget;
    [|by rewrite getitem_absent].
  destruct (decide (key ∈ multiple_keys self)) as [Hmulti | Hmulti].
  - destruct (py_iter value) as [vs|e'] eqn:Hiter.
    + rewrite (getitem_multiple _ _ _ _ Hmulti Hget Hiter).
      destruct (mapM normalized vs); [discriminate|].
      intros [= <-]. right. by eexists _, _.
    + pose proof (py_iter_raise _ _ Hiter) as ->.
      rewrite (getitem_multiple_not_iterable _ _ _ Hmulti Hget Hiter).
      intros [= <-]. left. eauto.
  - rewrite (getitem_scalar _ _ _ Hmulti Hget).
    destruct (first_of_sequence value) as [| | |b| |]; try discriminate.
    destruct (utf8_decode b); [discriminate|].
    intros [= <-]. right. by eexists _, _.
Qed.

(** X3.  Under a key that is not multi-valued the message of the error
    ends in a preview of at most 163 characters, all of them printable
    ASCII: the [repr] of at most forty octets.  The whole message is at most
    184 characters longer than the key. *)
Theorem invalid_unicode_scalar_preview_printable self key (he : HTTPError.t) :
  key ∉ multiple_keys self →
  __getitem__ self key = Raise (HTTP he) →
  ∃ preview,
    HTTPError.log_message he
    = Some (lit "Invalid unicode in " ++ key ++ lit ": " ++ preview)
    ∧ (length preview ≤ 163)%nat
    ∧ Forall printable_ascii preview
    ∧ ∀ message,
        HTTPError.log_message he = Some message →
        (length message ≤ length key + 184)%nat.
Proof.
  intros Hmulti Hraise.
  destruct (invalid_unicode_scalar_preview_bounded _ _ _ Hmulti Hraise)
    as (_ & b & Hmessage & Hlength).
  exists (repr_bytes (take 40 b)). split; [exact Hmessage|].
  split; [exact Hlength|]. split; [apply repr_bytes_printable|].
  intros message Hsame.
  assert (message = lit "Invalid unicode in " ++ key ++ lit ": "
                    ++ repr_bytes (take 40 b)) as -> by congruence.
  rewrite !length_app, !length_lit. simpl String.length. lia.
Qed.

(** X4.  Under a multi-valued key a raw value that is one text or one
    bytes object is not wrapped but iterated: text comes back as the list of
    its characters, bytes as the list of the octets' numbers, undecoded, so
    that bytes that are not UTF-8 raise nothing here. *)
Theorem getitem_multiple_scalar_raw_is_iterated self key :
  key ∈ multiple_keys self →
  (∀ s : pystr,
     data self !! key = Some (PStr s) →
     __getitem__ self key
     = Return (Present (PList ((λ c, PStr [c]) <$> s))))
  ∧ (∀ b : pybytes,
       data self !! key = Some (PBytes b) →
       __getitem__ self key
       = Return (Present (PList ((λ c, PInt (Z.of_N (to_N c))) <$> b)))).
Proof.
  intros Hmulti. split.
  - intros s. by apply getitem_multiple_text.
  - intros b Hget. rewrite (getitem_multiple _ _ _ _ Hmulti Hget eq_refl).
    rewrite mapM_normalized_no_bytes; [reflexivity|].
    apply Forall_fmap, Forall_true. by intros c b'.
Qed.

(** X5.  The two branches agree on the first occurrence.  Over the same raw
    mapping, when a key read as multi-valued gives a list, the same key
    read as single-valued gives the head of that list; the converse fails,
    since a later occurrence may not decode. *)
Theorem getitem_multiple_head_is_scalar_lookup
    (raw : gmap pystr pyval) (with_key without_key : gset pystr) key vs ds d :
  key ∈ with_key →
  key ∉ without_key →
  raw !! key = Some (PList vs) ∨ raw !! key = Some (PTuple vs) →
  __getitem__ {| data := raw; multiple_keys := with_key |} key
  = Return (Present (PList ds)) →
  ds !! 0%nat = Some d →
  __getitem__ {| data := raw; multiple_keys := without_key |} key
  = Return (Present d).
Proof.
  intros Hwith Hwithout Hget Hlist Hhead.
  assert (∃ value,
            raw !! key = Some value ∧ py_iter value = Return vs
            ∧ ∀ v rest, vs = v :: rest → first_of_sequence value = v)
    as (value & Hvalue & Hiter & Hfirst).
  { destruct Hget; eexists; (split; [eassumption|]);
      (split; [reflexivity|]); by intros v rest ->. }
  rewrite (getitem_multiple {| data := raw; multiple_keys := with_key |}
             _ _ _ Hwith Hvalue Hiter) in Hlist.
  destruct (mapM normalized vs) as [ds'|] eqn:Hmap; [|discriminate].
  injection Hlist as ->. apply mapM_Some_1 in Hmap.
  destruct Hmap as [|v d' rest ds' Hnorm _]; [discriminate|].
  injection Hhead as ->.
  eapply (getitem_scalar_normalized
            {| data := raw; multiple_keys := without_key |});
    [exact Hwithout | exact Hvalue |].
  by rewrite (Hfirst v rest).
Qed.

(** X6.  Under a multi-valued key the preview is cut by elements, not by
    octets: when some element of the raw list does not decode, the message
    shows the [repr] of the list's first forty elements, each in full, and
    nothing of what follows them, wherever the offending element is. *)
Theorem invalid_unicode_multiple_preview_first_forty self key vs :
  key ∈ multiple_keys self →
  data self !! key = Some (PList vs) →
  Exists (λ v, normalized v = None) vs →
  ∃ he,
    __getitem__ self key = Raise (HTTP he)
    ∧ HTTPError.log_message he
      = Some (lit "Invalid unicode in " ++ key ++ lit ": "
              ++ lit "[" ++ join (lit ", ") (py_repr <$> take 40 vs) ++ lit "]").
Proof.
  intros Hmulti Hget Hbad.
  rewrite (getitem_multiple _ _ _ _ Hmulti Hget eq_refl).
  rewrite (mapM_None_2 _ _ Hbad). eexists. split; reflexivity.
Qed.

(** X9.  Bytes that are plain ASCII always decode: under a key that is not
    multi-valued, a raw value that is such bytes, or a list or tuple that
    starts with them, comes back as the text of the same characters. *)
Theorem getitem_scalar_ascii_bytes self key value (b : pybytes) :
  key ∉ multiple_keys self →
  data self !! key = Some value →
  first_of_sequence value = PBytes b →
  Forall (λ c, to_N c < 0x80) b →
  __getitem__ self key = Return (Present (PStr (to_N <$> b))).
Proof.
  intros Hmulti Hget Hfirst Hascii.
  apply (getitem_scalar_normalized _ _ _ _ Hmulti Hget).
  rewrite Hfirst. simpl. unfold utf8_decode.
  rewrite utf8_decode_octets_ascii; [reflexivity|].
  by apply Forall_fmap.
Qed.

(** X10.  Text that the lookup decodes from bytes is well-formed: it has no
    more characters than the bytes had octets, and every character is a
    Unicode scalar value, at most U+10FFFF and no surrogate. *)
Theorem getitem_scalar_decoded_text_scalar_values self key value
    (b : pybytes) (r : or_missing pyval) :
  key ∉ multiple_keys self →
  data self !! key = Some value →
  first_of_sequence value = PBytes b →
  __getitem__ self key = Return r →
  ∃ s : pystr,
    r = Present (PStr s)
    ∧ utf8_decode b = Some s
    ∧ (length s ≤ length b)%nat
    ∧ Forall scalar_value s.
Proof.
  intros Hmulti Hget Hfirst.
  rewrite (getitem_scalar _ _ _ Hmulti Hget), Hfirst.
  destruct (utf8_decode b) as [s|] eqn:Hdec; [|discriminate].
  intros [= <-]. exists s. split; [reflexivity|]. split; [reflexivity|].
  apply utf8_decode_octets_scalar in Hdec as [Hlen Hall].
  by rewrite length_fmap in Hlen.
Qed.
(** What normalisation gives is left alone by normalisation. *)
Lemma normalized_idempotent v d : normalized v = Some d → normalized d = Some d.
Proof.
  destruct v as [| | |b| |]; simpl; try by intros [= <-].
  destruct (utf8_decode b); by intros [= <-].
Qed.

(** Bytes normalise to text, one for one. *)
Lemma normalized_bytes_text (bs : list pybytes) ds :
  Forall2 (λ v d, normalized v = Some d) (PBytes <$> bs) ds →
  ∃ ss : list pystr, ds = PStr <$> ss ∧ length ss = length bs.
Proof.
  revert ds. induction bs as [|b bs IH]; intros ds Hall.
  - apply Forall2_nil_inv_l in Hall as ->. by exists [].
  - apply Forall2_cons_inv_l in Hall as (d & ds' & Hd & Hall & ->).
    destruct (IH _ Hall) as (ss & -> & Hlen).
    simpl in Hd. destruct (utf8_decode b) as [s|]; [|discriminate].
    injection Hd as <-. exists (s :: ss).
    split; [reflexivity | simpl; by rewrite Hlen].
Qed.

(** X11.  The multi-valued lookup is idempotent on its own output: a list it
    has returned, put back as the raw value of a multi-valued key, is
    returned as it is. *)
Theorem getitem_multiple_idempotent self again key ds :
  key ∈ multiple_keys self →
  __getitem__ self key = Return (Present (PList ds)) →
  key ∈ multiple_keys again →
  data again !! key = Some (PList ds) →
  __getitem__ again key = Return (Present (PList ds)).
Proof.
  intros Hmulti Hfirst Hmulti' Hget'.
  destruct (data self !! key) as [value|] eqn:Hget;
    [|by rewrite getitem_absent in Hfirst].
  destruct (py_iter value) as [vs|e] eqn:Hiter.
  2: { pose proof (py_iter_raise _ _ Hiter) as ->.
       by rewrite (getitem_multiple_not_iterable _ _ _ Hmulti Hget Hiter)
         in Hfirst. }
  rewrite (getitem_multiple _ _ _ _ Hmulti Hget Hiter) in Hfirst.
  destruct (mapM normalized vs) as [ds'|] eqn:Hmap; [|discriminate].
  injection Hfirst as ->. apply mapM_Some_1 in Hmap.
  rewrite (getitem_multiple _ _ _ _ Hmulti' Hget' eq_refl).
  rewrite (mapM_Some_2 normalized ds ds); [reflexivity|].
  apply Forall_Forall2_diag.
  clear Hget' Hiter. induction Hmap as [|v d vs' ds' Hd _ IH]; constructor.
  - by apply (normalized_idempotent v).
  - exact IH.
Qed.

(** X12.  Arguments as Tornado delivers them, a list of one or more bytes
    values for each name, reach the schema as text only: whenever the
    lookup returns, it returns one text under a key that is not
    multi-valued, and under a multi-valued key a list of texts, one for
    each occurrence.  No bytes value and no sentinel gets through. *)
Theorem getitem_tornado_arguments_are_text self key (bs : list pybytes)
    (r : or_missing pyval) :
  data self !! key = Some (PList (PBytes <$> bs)) →
  bs ≠ [] →
  __getitem__ self key = Return r →
  if bool_decide (key ∈ multiple_keys self)
  then ∃ ss : list pystr,
         r = Present (PList (PStr <$> ss)) ∧ length ss = length bs
  else ∃ s : pystr, r = Present (PStr s).
Proof.
  intros Hget Hpresent. case_bool_decide as Hmulti.
  - rewrite (getitem_multiple _ _ _ _ Hmulti Hget eq_refl).
    destruct (mapM normalized (PBytes <$> bs)) as [ds|] eqn:Hmap;
      [|discriminate].
    intros [= <-]. apply mapM_Some_1, normalized_bytes_text in Hmap.
    destruct Hmap as (ss & -> & Hlen). eauto.
  - rewrite (getitem_scalar _ _ _ Hmulti Hget).
    destruct bs as [|b bs']; [done|]. simpl.
    destruct (utf8_decode b) as [s|]; [|discriminate].
    intros [= <-]. eauto.
Qed.
End proxy_outcomes.

(** ** Outcomes of the JSON loader and of the header lookup *)

Section json_outcomes.
Context `{!Core}.
Import TornadoParser.

Implicit Types (req : Request.t).

(** X7.  The three outcomes of [_raw_load_json], each with the requests
    that lead to it.  It answers MISSING exactly when the content type is
    not JSON or the body is a future; otherwise the body is bytes and the
    outcome is that of [core.parse_json] on them: its document, or whatever
    it raises, which the loader neither catches nor replaces. *)
Theorem raw_load_json_outcomes req :
  (_raw_load_json req = Return Missing
   ↔ is_json_request req = false ∨ Request.body req = Future)
  ∧ (∀ doc,
       _raw_load_json req = Return (Present doc)
       ↔ is_json_request req = true
         ∧ ∃ b, Request.body req = Body b ∧ parse_json b = Return doc)
  ∧ (∀ e,
       _raw_load_json req = Raise e
       ↔ is_json_request req = true
         ∧ ∃ b, Request.body req = Body b ∧ parse_json b = Raise e).
Proof.
  unfold _raw_load_json.
  destruct (is_json_request req); simpl.
  2: { split_and!.
       - split; [auto | done].
       - intros doc. split; [discriminate | intros [[=] _]].
       - intros e. split; [discriminate | intros [[=] _]]. }
  destruct (Request.body req) as [b|].
  2: { split_and!.
       - split; [auto | done].
       - intros doc. split; [discriminate | intros (_ & b & [=] & _)].
       - intros e. split; [discriminate | intros (_ & b & [=] & _)]. }
  split_and!.
  - split; [destruct (parse_json b); discriminate | intros [[=] | [=]]].
  - intros doc. split.
    + destruct (parse_json b) as [doc'|] eqn:Hparse; simpl; [|discriminate].
      intros [= <-]. eauto.
    + intros (_ & b' & [= <-] & ->). reflexivity.
  - intros e. split.
    + destruct (parse_json b) as [|e'] eqn:Hparse; simpl; [discriminate|].
      intros [= <-]. eauto.
    + intros (_ & b' & [= <-] & ->). reflexivity.
Qed.
End json_outcomes.

Section header_lookup.
Context `{!UnicodeData} `{!HeaderNames}.
Import TornadoParser WebArgsTornadoMultiDictProxy.

End header_lookup.

(** ** The spec's scenarios, evaluated *)

Section scenarios.
#[local] Existing Instance latin1_data.
#[local] Existing Instance sample_core.
#[local] Existing Instance ascii_header_names.
Import TornadoParser.

(** A body that would parse, under a content type that is not JSON. *)
Lemma raw_load_json_non_json_missing_witness :
  is_json_request plain_text_fred = false
  ∧ (∃ doc, parse_json fred_body = Return doc)
  ∧ _raw_load_json plain_text_fred = Return Missing.
Proof.
  assert (is_json_request plain_text_fred = false) as Hct
    by (vm_compute; reflexivity).
  split; [exact Hct|]. split; [eexists; vm_compute; reflexivity|].
  exact (proj1 (raw_load_json_non_json_missing plain_text_fred Hct)).
Defined.

Lemma raw_load_json_future_missing_witness :
  is_json_request streaming = true
  ∧ Request.body streaming = Future
  ∧ _raw_load_json streaming = Return Missing.
Proof.
  split; [vm_compute; reflexivity|]. split; [reflexivity|].
  exact (raw_load_json_future_missing streaming eq_refl).
Defined.

Lemma invalid_json_body_raises_400_witness :
  is_json_request broken_json = true
  ∧ parse_json (ascii_bytes "{oops") = Raise JSONDecodeError
  ∧ ∃ e, load_json broken_json [] = Raise (HTTP e)
         ∧ HTTPError.status_code e = 400%Z
         ∧ HTTPError.messages e = [(lit "json", [lit "Invalid JSON body."])].
Proof.
  assert (is_json_request broken_json = true) as Hct
    by (vm_compute; reflexivity).
  assert (parse_json (ascii_bytes "{oops") = Raise JSONDecodeError) as Hparse
    by (vm_compute; reflexivity).
  split; [exact Hct|]. split; [exact Hparse|].
  destruct (invalid_json_body_raises_400 broken_json []
              (ascii_bytes "{oops") Hct eq_refl ltac:(discriminate) Hparse)
    as (e & _ & Hload & _ & Hstatus & _ & Hmessages & _).
  exists e. auto.
Defined.



Lemma getitem_scalar_takes_first_witness :
  (lit "name"
   ∉ multiple_keys (single_key_proxy (lit "name") steve_loria false))
  ∧ WebArgsTornadoMultiDictProxy.__getitem__
      (single_key_proxy (lit "name") steve_loria false) (lit "name")
    = Return (Present (PStr (lit "steve")))
  ∧ WebArgsTornadoMultiDictProxy.__getitem__
      (single_key_proxy (lit "name") steve_loria false) (lit "other")
    = Return Missing.
Proof.
  assert (lit "name"
          ∉ multiple_keys (single_key_proxy (lit "name") steve_loria false))
    as Hmulti by apply not_elem_of_empty.
  split; [exact Hmulti|]. split.
  - destruct (getitem_scalar_takes_first
                (single_key_proxy (lit "name") steve_loria false) (lit "name"))
      as [_ Hfirst].
    destruct (Hfirst Hmulti (PBytes (ascii_bytes "steve"))
                [PBytes (ascii_bytes "Loria")])
      as (_ & Hbytes & _).
    + left. by apply lookup_singleton_eq.
    + by apply (Hbytes (ascii_bytes "steve")).
  - destruct (getitem_scalar_takes_first
                (single_key_proxy (lit "name") steve_loria false) (lit "other"))
      as [Habsent _].
    apply Habsent. by apply lookup_singleton_ne.
Defined.

Lemma getitem_empty_sequence_unchanged_witness :
  WebArgsTornadoMultiDictProxy.__getitem__
    (single_key_proxy (lit "name") (PList []) false) (lit "name")
  = Return (Present (PList [])).
Proof.
  apply getitem_empty_sequence_unchanged.
  - apply not_elem_of_empty.
  - by apply lookup_singleton_eq.
  - by left.
Defined.

(** Cookie [name=Steve]. *)
Lemma cookie_getitem_unwraps_without_decoding_witness :
  WebArgsTornadoCookiesMultiDictProxy.__getitem__
    (single_key_proxy (lit "name") (Morsel.mk (PStr (lit "Steve"))) false)
    (lit "name")
  = Return (Present (PStr (lit "Steve"))).
Proof.
  destruct (cookie_getitem_unwraps_without_decoding
              (single_key_proxy (lit "name") (Morsel.mk (PStr (lit "Steve")))
                 false)
              (lit "name"))
    as (_ & _ & Hscalar & _).
  apply (Hscalar (Morsel.mk (PStr (lit "Steve")))).
  - by apply lookup_singleton_eq.
  - apply not_elem_of_empty.
Defined.

(** Scenario 7 of the spec: the form field [name], given twice, read
    through [load_form] under a schema that declares it multi-valued, and
    under one that does not. *)
Example multi_value_form :
  WebArgsTornadoMultiDictProxy.__getitem__
    (load_form form_post [(lit "name", true)]) (lit "name")
  = Return (Present (PList [PStr (lit "steve"); PStr (lit "Loria")]))
  ∧ WebArgsTornadoMultiDictProxy.__getitem__
      (load_form form_post [(lit "name", false)]) (lit "name")
    = Return (Present (PStr (lit "steve"))).
Proof. split; vm_compute; reflexivity. Qed.

(** Scenario 10 of the spec: the cookie [name=Steve] read through
    [load_cookies]. *)
Example cookie_extraction :
  WebArgsTornadoCookiesMultiDictProxy.__getitem__
    (load_cookies cookie_get [(lit "name", false)]) (lit "name")
  = Return (Present (PStr (lit "Steve"))).
Proof. vm_compute. reflexivity. Qed.

(** The header sent as [name] and kept as [Name] is found under either
    spelling, read through [load_headers]; a header that was not sent is
    missing. *)
Example header_under_any_spelling :
  WebArgsTornadoMultiDictProxy.__getitem__
    (load_headers header_get [(lit "name", false)] (lit "name")) (lit "name")
  = Return (Present (PStr (lit "Fred")))
  ∧ WebArgsTornadoMultiDictProxy.__getitem__
      (load_headers header_get [(lit "name", false)] (lit "NAME")) (lit "NAME")
    = Return (Present (PStr (lit "Fred")))
  ∧ WebArgsTornadoMultiDictProxy.__getitem__
      (load_headers header_get [(lit "name", false)] (lit "x-other"))
      (lit "x-other")
    = Return Missing.
Proof. repeat split; vm_compute; reflexivity. Qed.

(** A raw value that is one text, as a header is, iterates to its
    characters under a multi-valued key. *)
Example text_under_multiple_key :
  WebArgsTornadoMultiDictProxy.__getitem__
    (single_key_proxy (lit "k") (PStr (lit "ab")) true) (lit "k")
  = Return (Present (PList [PStr (lit "a"); PStr (lit "b")])).
Proof. vm_compute. reflexivity. Qed.

(** A cookie value that is not text comes back as it is, where the
    argument proxy would refuse it. *)
Example cookie_value_not_decoded :
  WebArgsTornadoCookiesMultiDictProxy.__getitem__
    (single_key_proxy (lit "k") (Morsel.mk (PBytes [xff])) false) (lit "k")
  = Return (Present (PBytes [xff]))
  ∧ ∃ e, WebArgsTornadoMultiDictProxy.__getitem__
           (single_key_proxy (lit "k") (PBytes [xff]) false) (lit "k")
         = Raise (HTTP e).
Proof. split; [|eexists]; vm_compute; reflexivity. Qed.

Lemma handle_error_raises_with_status_witness :
  ∃ e,
    handle_error (A := unit) name_rejected streaming [] (Some 404%Z)
      retry_after
    = Raise (HTTP e)
    ∧ HTTPError.status_code e = 404%Z
    ∧ HTTPError.reason e = None
    ∧ HTTPError.messages e = [(lit "name", [lit "Invalid value."])]
    ∧ HTTPError.headers e = retry_after.
Proof.
  destruct (handle_error_raises_with_status (A := unit) name_rejected
              streaming [] (Some 404%Z) retry_after)
    as (e & Hraise & Hgiven & _ & _ & Hreason & Hmessages & Hheaders).
  exists e. split; [exact Hraise|].
  assert (HTTPError.status_code e = 404%Z) as Hstatus
    by (by apply Hgiven).
  split; [exact Hstatus|]. split; [|by split].
  apply Hreason. rewrite Hstatus. discriminate.
Defined.

(** A status of zero given by the caller is not the status of the error:
    [0 or 422] is 422. *)
Lemma handle_error_zero_status_counterexample :
  (∃ e,
     handle_error (A := unit) name_rejected streaming [] (Some 0%Z) None
     = Raise (HTTP e)
     ∧ HTTPError.status_code e = 422%Z)
  ∧ ¬ (∃ e,
         handle_error (A := unit) name_rejected streaming [] (Some 0%Z) None
         = Raise (HTTP e)
         ∧ HTTPError.status_code e = 0%Z).
Proof.
  split.
  - eexists. split; reflexivity.
  - intros (e & [= <-] & Hstatus). discriminate Hstatus.
Qed.

(** The same hundred undecodable octets under a key that is not
    multi-valued and under one that is: forty of them are shown in the
    first message, all of them in the second. *)
Example invalid_unicode_message_lengths :
  (∃ e, WebArgsTornadoMultiDictProxy.__getitem__ (flood 100 false) (lit "k")
        = Raise (HTTP e)
        ∧ length <$> HTTPError.log_message e = Some 185%nat)
  ∧ (∃ e, WebArgsTornadoMultiDictProxy.__getitem__ (flood 100 true) (lit "k")
          = Raise (HTTP e)
          ∧ length <$> HTTPError.log_message e = Some 427%nat).
Proof. split; eexists; split; vm_compute; reflexivity. Qed.
End scenarios.

(** ** The outcomes, evaluated *)

Section outcome_scenarios.
#[local] Existing Instance latin1_data.
Import WebArgsTornadoMultiDictProxy.

(** One undecodable octet under a key that is not multi-valued. *)
Lemma getitem_raises_bad_request_or_type_error_witness :
  ∃ he,
    __getitem__ (flood 1 false) (lit "k") = Raise (HTTP he)
    ∧ HTTPError.status_code he = 400%Z
    ∧ HTTPError.messages he = []
    ∧ HTTPError.headers he = None.
Proof.
  assert (__getitem__ (flood 1 false) (lit "k")
          = Raise (HTTP (HTTPError.__init__ 400
                           (Some (invalid_unicode_message (lit "k")
                                    (PBytes [xff])))
                           None None None))) as Hraise
    by (vm_compute; reflexivity).
  destruct (getitem_raises_bad_request_or_type_error _ _ _ Hraise)
    as [(Hne & _) | (he & preview & Heq & Hstatus & _ & Hmessages & Hheaders & _)];
    [discriminate Hne|].
  exists he. rewrite Hraise, Heq. auto.
Defined.

Lemma invalid_unicode_scalar_preview_printable_witness :
  (lit "k" ∉ multiple_keys (flood 100 false))
  ∧ ∃ he preview,
      __getitem__ (flood 100 false) (lit "k") = Raise (HTTP he)
      ∧ HTTPError.log_message he
        = Some (lit "Invalid unicode in " ++ lit "k" ++ lit ": " ++ preview)
      ∧ (length preview ≤ 163)%nat
      ∧ Forall printable_ascii preview.
Proof.
  assert (lit "k" ∉ multiple_keys (flood 100 false)) as Hmulti
    by apply not_elem_of_empty.
  split; [exact Hmulti|].
  assert (__getitem__ (flood 100 false) (lit "k")
          = Raise (HTTP (HTTPError.__init__ 400
                           (Some (invalid_unicode_message (lit "k")
                                    (PBytes (replicate 40 xff))))
                           None None None))) as Hraise
    by (vm_compute; reflexivity).
  destruct (invalid_unicode_scalar_preview_printable _ _ _ Hmulti Hraise)
    as (preview & Hmessage & Hlength & Hprintable & _).
  eexists _, preview. split; [exact Hraise|]. auto.
Defined.

(** The text [ab] under a multi-valued key. *)
Lemma getitem_multiple_scalar_raw_is_iterated_witness :
  __getitem__ (single_key_proxy (lit "k") (PStr (lit "ab")) true) (lit "k")
  = Return (Present (PList [PStr (lit "a"); PStr (lit "b")])).
Proof.
  destruct (getitem_multiple_scalar_raw_is_iterated
              (single_key_proxy (lit "k") (PStr (lit "ab")) true) (lit "k"))
    as [Htext _]; [by apply elem_of_singleton_2|].
  apply (Htext (lit "ab")). by apply lookup_singleton_eq.
Defined.

Lemma getitem_multiple_head_is_scalar_lookup_witness :
  __getitem__ (single_key_proxy (lit "name") steve_loria true) (lit "name")
  = Return (Present (PList [PStr (lit "steve"); PStr (lit "Loria")]))
  ∧ __getitem__ (single_key_proxy (lit "name") steve_loria false) (lit "name")
    = Return (Present (PStr (lit "steve"))).
Proof.
  assert (__getitem__ (single_key_proxy (lit "name") steve_loria true)
            (lit "name")
          = Return (Present (PList [PStr (lit "steve"); PStr (lit "Loria")])))
    as Hlist by (vm_compute; reflexivity).
  split; [exact Hlist|].
  apply (getitem_multiple_head_is_scalar_lookup
           {[ lit "name" := steve_loria ]} {[ lit "name" ]} ∅ (lit "name")
           [PBytes (ascii_bytes "steve"); PBytes (ascii_bytes "Loria")]
           [PStr (lit "steve"); PStr (lit "Loria")]).
  - by apply elem_of_singleton_2.
  - apply not_elem_of_empty.
  - left. by apply lookup_singleton_eq.
  - exact Hlist.
  - reflexivity.
Defined.

Lemma invalid_unicode_multiple_preview_first_forty_witness :
  ∃ he,
    __getitem__ (flood 1 true) (lit "k") = Raise (HTTP he)
    ∧ HTTPError.log_message he
      = Some (lit "Invalid unicode in " ++ lit "k" ++ lit ": "
              ++ lit "[" ++ repr_bytes [xff] ++ lit "]").
Proof.
  apply (invalid_unicode_multiple_preview_first_forty (flood 1 true) (lit "k")
           [PBytes [xff]]).
  - by apply elem_of_singleton_2.
  - by apply lookup_singleton_eq.
  - apply Exists_cons_hd. reflexivity.
Defined.

Lemma getitem_scalar_ascii_bytes_witness :
  __getitem__ (single_key_proxy (lit "name") steve_loria false) (lit "name")
  = Return (Present (PStr (to_N <$> ascii_bytes "steve"))).
Proof.
  apply (getitem_scalar_ascii_bytes _ _ steve_loria).
  - apply not_elem_of_empty.
  - by apply lookup_singleton_eq.
  - reflexivity.
  - change (ascii_bytes "steve") with [x73; x74; x65; x76; x65].
    repeat (apply Forall_cons; split; [reflexivity|]). constructor.
Defined.

(** The two octets of U+00E9 under a key that is not multi-valued. *)
Lemma getitem_scalar_decoded_text_scalar_values_witness :
  ∃ s : pystr,
    __getitem__ (single_key_proxy (lit "k") (PBytes [xc3; xa9]) false) (lit "k")
    = Return (Present (PStr s))
    ∧ (length s ≤ 2)%nat
    ∧ Forall scalar_value s.
Proof.
  assert (__getitem__ (single_key_proxy (lit "k") (PBytes [xc3; xa9]) false)
            (lit "k")
          = Return (Present (PStr [0xE9]))) as Hlookup
    by (vm_compute; reflexivity).
  destruct (getitem_scalar_decoded_text_scalar_values
              (single_key_proxy (lit "k") (PBytes [xc3; xa9]) false) (lit "k")
              (PBytes [xc3; xa9]) [xc3; xa9] (Present (PStr [0xE9])))
    as (s & Hr & _ & Hlen & Hall).
  - apply not_elem_of_empty.
  - by apply lookup_singleton_eq.
  - reflexivity.
  - exact Hlookup.
  - exists s. rewrite Hlookup, Hr. auto.
Defined.

Lemma getitem_multiple_idempotent_witness :
  __getitem__
    (single_key_proxy (lit "name")
       (PList [PStr (lit "steve"); PStr (lit "Loria")]) true)
    (lit "name")
  = Return (Present (PList [PStr (lit "steve"); PStr (lit "Loria")])).
Proof.
  apply (getitem_multiple_idempotent
           (single_key_proxy (lit "name") steve_loria true)).
  - by apply elem_of_singleton_2.
  - vm_compute. reflexivity.
  - by apply elem_of_singleton_2.
  - by apply lookup_singleton_eq.
Defined.

Lemma getitem_tornado_arguments_are_text_witness :
  ∃ ss : list pystr,
    __getitem__ (single_key_proxy (lit "name") steve_loria true) (lit "name")
    = Return (Present (PList (PStr <$> ss)))
    ∧ length ss = 2%nat.
Proof.
  assert (__getitem__ (single_key_proxy (lit "name") steve_loria true)
            (lit "name")
          = Return (Present (PList [PStr (lit "steve"); PStr (lit "Loria")])))
    as Hlist by (vm_compute; reflexivity).
  pose proof (getitem_tornado_arguments_are_text
                (single_key_proxy (lit "name") steve_loria true) (lit "name")
                [ascii_bytes "steve"; ascii_bytes "Loria"] _
                (lookup_singleton_eq _ _) ltac:(discriminate) Hlist) as Htext.
  rewrite bool_decide_eq_true_2 in Htext by (by apply elem_of_singleton_2).
  destruct Htext as (ss & Hr & Hlen). exists ss. rewrite Hlist, Hr. auto.
Defined.
End outcome_scenarios.
